(** * Bitget exchange adapter (patch/exchange/bitget.py)

    A shallow embedding of the [Bitget] subclass of freqtrade's [Exchange]
    and the properties of its hook methods.  The base class [Exchange] and the
    raw ccxt client are external collaborators: the methods the adapter calls
    on them are binders of the definitions below. *)

From Stdlib Require Import ZArith QArith String List Bool Lia.
From stdpp Require Import base option strings list gmap.

Local Set Warnings "-register-all".

Open Scope string_scope.
Open Scope Z_scope.

(** ** Python values *)

Module Py.

(** [PriceType] members key one of the capability tables. *)
Inductive PriceType := LAST | MARK | INDEX.

(** The values that occur in the adapter's dictionaries.  A float is only
    passed through (the leverage), never computed with. *)
Inductive value :=
  | VNone
  | VBool (b : bool)
  | VInt (z : Z)
  | VFloat (q : Q)
  | VStr (s : string)
  | VList (l : list value)
  | VDict (d : gmap string value)
  | VPriceDict (d : list (PriceType * string)).

(** Python truth value testing ([bool(v)]). *)
Definition truthy (v : value) : bool :=
  match v with
  | VNone => false
  | VBool b => b
  | VInt z => negb (z =? 0)
  | VFloat q => negb (Qeq_bool q 0)
  | VStr s => negb (String.eqb s "")
  | VList l => match l with [] => false | _ => true end
  | VDict d => match map_to_list d with [] => false | _ => true end
  | VPriceDict d => match d with [] => false | _ => true end
  end.

(** [d.get(k, default)] *)
Definition dict_get (d : gmap string value) (k : string) (dflt : value) : value :=
  match d !! k with
  | Some v => v
  | None => dflt
  end.

(** [d.update(other)]: every key of [other] is written into [d]. *)
Definition dict_update (d other : gmap string value) : gmap string value :=
  other ∪ d.

(** A Python class, identified by its module and its name:
    [ccxt.ExchangeError] and [freqtrade.exceptions.ExchangeError] are two
    classes. *)
Record pyclass := PyClass { cls_module : string; cls_name : string }.

Definition pyclass_eqb (c d : pyclass) : bool :=
  String.eqb (cls_module c) (cls_module d) && String.eqb (cls_name c) (cls_name d).

(** An exception object raised by code outside the adapter (the ccxt client,
    the interpreter): the classes it is an instance of (its method resolution
    order, its own class first) and its message ([str(e)]). *)
Record raised := Raised { exc_mro : list pyclass; exc_str : string }.

(** [e.__class__.__name__] *)
Definition class_name (e : raised) : string :=
  match exc_mro e with
  | c :: _ => cls_name c
  | [] => ""
  end.

(** [isinstance(e, cls)] *)
Definition isinstance (e : raised) (cls : pyclass) : bool :=
  existsb (pyclass_eqb cls) (exc_mro e).

(** What reaches the caller of an adapter method: one of the three exceptions
    of [freqtrade.exceptions] that the adapter constructs, each raised [from]
    the exception it wraps, or an exception that propagates as it is. *)
Inductive exc :=
  | DDosProtection (e : raised)
  | TemporaryError (msg : string) (cause : raised)
  | OperationalException (e : raised)
  | Propagated (e : raised).

(** The exception [d[k]] raises when [k] is missing. *)
Definition KeyError (k : string) : raised :=
  Raised [PyClass "builtins" "KeyError"; PyClass "builtins" "LookupError";
          PyClass "builtins" "Exception"; PyClass "builtins" "BaseException";
          PyClass "builtins" "object"]
         ("'" ++ k ++ "'").

End Py.

Export Py.

(** ** Enumerations and literals of the host ([freqtrade.enums],
    [freqtrade.constants]) that the adapter names *)

Inductive TradingMode := SPOT | MARGIN | FUTURES.

Definition TradingMode_eqb (a b : TradingMode) : bool :=
  match a, b with
  | SPOT, SPOT | MARGIN, MARGIN | FUTURES, FUTURES => true
  | _, _ => false
  end.

(** [MarginMode] is a string enumeration; [NONE] is the empty string. *)
Inductive MarginMode := CROSS | ISOLATED | NONE.

Definition MarginMode_value (m : MarginMode) : string :=
  match m with
  | CROSS => "cross"
  | ISOLATED => "isolated"
  | NONE => ""
  end.

(** Truth value of a [MarginMode] member: that of its string. *)
Definition MarginMode_truthy (m : MarginMode) : bool :=
  negb (String.eqb (MarginMode_value m) "").

Inductive BuySell := buy | sell.

(** ** Effects

    A method runs in a world [W] (the exchange, the base class's private
    state) that only the collaborators change.  The embedding records every
    call the adapter makes on a collaborator, in order. *)

Inductive event :=
  | LogInfo (msg : string)
  | LogWarning (msg : string)
  | ApiFetchPositions (symbols : option (list string))
  | SuperFetchPositions (pair : option string)
  | SetMarginMode (pair : string) (mode : MarginMode) (accept_fail : bool)
                  (params : gmap string value)
  | SetLeverage (leverage : Q) (pair : string) (accept_fail : bool).

(** A collaborator's method: it may change the world and either returns or
    raises. *)
Definition act (W A : Type) : Type := W -> W * (exc + A).

(** An adapter method: the calls made, the final world, and the outcome. *)
Definition M (W A : Type) : Type := W -> list event * W * (exc + A).

Definition ret {W A} (a : A) : M W A := fun w => ([], w, inr a).

Definition raise {W A} (e : exc) : M W A := fun w => ([], w, inl e).

Definition bind {W A B} (m : M W A) (k : A -> M W B) : M W B :=
  fun w =>
    let '(t1, w1, r) := m w in
    match r with
    | inl e => (t1, w1, inl e)
    | inr a => let '(t2, w2, r2) := k a w1 in ((t1 ++ t2)%list, w2, r2)
    end.

(** Call a collaborator: the call is recorded, then it runs. *)
Definition call {W A} (ev : event) (f : act W A) : M W A :=
  fun w => let '(w', r) := f w in ([ev], w', r).

(** A call that cannot fail and leaves the world alone (the logger). *)
Definition emit {W} (ev : event) : M W unit := fun w => ([ev], w, inr tt).

(** [try: body except ...: handler]: the handler decides what an exception
    of the body becomes. *)
Definition try_except {W A} (body : W -> list event * W * (raised + A))
    (handler : raised -> exc) : M W A :=
  fun w =>
    let '(t, w', r) := body w in
    match r with
    | inl e => (t, w', inl (handler e))
    | inr a => (t, w', inr a)
    end.

Notation "x <- m ;; k" := (bind m (fun x => k))
  (at level 100, m at next level, right associativity).
Notation "m ;; k" := (bind m (fun _ => k))
  (at level 100, right associativity).

Definition trace {W A} (r : list event * W * (exc + A)) : list event := r.1.1.
Definition world {W A} (r : list event * W * (exc + A)) : W := r.1.2.
Definition outcome {W A} (r : list event * W * (exc + A)) : exc + A := r.2.

(** The attributes of [self] that the adapter reads. *)
Record exchange := Exchange {
  trading_mode : TradingMode;
  margin_mode : MarginMode;
  _config : gmap string value
}.

(** ** The adapter *)

Module Bitget.

(** The ccxt error classes the adapter's handlers name. *)
Definition ccxt_DDoSProtection : pyclass := PyClass "ccxt" "DDoSProtection".
Definition ccxt_OperationFailed : pyclass := PyClass "ccxt" "OperationFailed".
Definition ccxt_ExchangeError : pyclass := PyClass "ccxt" "ExchangeError".
Definition ccxt_BaseError : pyclass := PyClass "ccxt" "BaseError".

Definition _ft_has : gmap string value :=
  list_to_map
    [ ("ohlcv_has_history", VBool true);
      ("order_time_in_force", VList [VStr "GTC"; VStr "FOK"; VStr "IOC"]);
      ("ws_enabled", VBool true);
      ("trades_has_history", VBool false);
      ("fetch_orders_limit_minutes", VInt (7 * 1440)) ].

Definition _ft_has_futures : gmap string value :=
  list_to_map
    [ ("ohlcv_has_history", VBool true);
      ("mark_ohlcv_timeframe", VStr "4h");
      ("funding_fee_timeframe", VStr "8h");
      ("funding_fee_candle_limit", VInt 200);
      ("stoploss_on_exchange", VBool true);
      ("stoploss_order_types",
         VDict (list_to_map [("limit", VStr "limit"); ("market", VStr "market")]));
      ("stoploss_blocks_assets", VBool false);
      ("stop_price_prop", VStr "stopPx");
      ("stop_price_type_field", VStr "triggerType");
      ("stop_price_type_value_mapping",
         VPriceDict [(LAST, "latest_price"); (MARK, "mark_price"); (INDEX, "index_price")]);
      ("exchange_has_overrides", VDict (list_to_map [("fetchOrder", VBool true)])) ].

Definition _supported_trading_mode_margin_pairs : list (TradingMode * MarginMode) :=
  [ (FUTURES, CROSS); (FUTURES, ISOLATED) ].

Section Methods.

(** The world the collaborators act on. *)
Context {W : Type}.

Variable self : exchange.

(** The raw client: [self._api.fetch_positions(symbols=None)]. *)
Variable api_fetch_positions : option (list string) -> act W (list value).

(** The base class [Exchange], reached through [self] or [super()]. *)
Variable super_fetch_positions : option string -> act W (list value).
Variable set_margin_mode :
  string -> MarginMode -> bool -> gmap string value -> act W unit.
Variable _set_leverage : Q -> string -> bool -> act W unit.
Variable super_market_is_future : gmap string value -> bool.
Variable super_get_params :
  BuySell -> string -> Q -> bool -> string -> gmap string value.
Variable super_get_stop_params : BuySell -> string -> Q -> gmap string value.
Variable super_ccxt_config : gmap string value.

Definition _ccxt_config : gmap string value :=
  let config : gmap string value := ∅ in
  let config :=
    if TradingMode_eqb (trading_mode self) SPOT then
      dict_update config {[ "options" := VDict {[ "defaultType" := VStr "spot" ]} ]}
    else if TradingMode_eqb (trading_mode self) FUTURES then
      dict_update config {[ "options" := VDict {[ "defaultType" := VStr "swap" ]} ]}
    else config in
  dict_update config super_ccxt_config.

(** The [try] block of [additional_exchange_init]: it subscripts the
    configuration and does nothing else. *)
Definition additional_exchange_init_try : W -> list event * W * (raised + unit) :=
  fun w =>
    match _config self !! "dry_run" with
    | None => ([], w, inl (KeyError "dry_run"))
    | Some dry_run =>
        if negb (truthy dry_run) then ([], w, inr tt) else ([], w, inr tt)
    end.

(** Its [except] clauses, tried in order; an exception that matches none
    of them propagates. *)
Definition additional_exchange_init_except (e : raised) : exc :=
  if isinstance e ccxt_DDoSProtection then
    DDosProtection e
  else if isinstance e ccxt_OperationFailed || isinstance e ccxt_ExchangeError then
    TemporaryError
      ("Error in additional_exchange_init due to " ++ class_name e
         ++ ". Message: " ++ exc_str e) e
  else if isinstance e ccxt_BaseError then
    OperationalException e
  else Propagated e.

(** The function that [@retrier] decorates. *)
Definition additional_exchange_init : M W unit :=
  try_except additional_exchange_init_try additional_exchange_init_except.

Definition market_is_future (market : gmap string value) : value :=
  let main := super_market_is_future market in
  if main then dict_get market "swap" (VBool false) else VBool main.

Definition _lev_prep (pair : string) (leverage : Q) (side : BuySell)
    (accept_fail : bool) : M W unit :=
  if negb (TradingMode_eqb (trading_mode self) SPOT) then
    let params : gmap string value := {[ "leverage" := VFloat leverage ]} in
    call (SetMarginMode pair (margin_mode self) true params)
         (set_margin_mode pair (margin_mode self) true params) ;;
    call (SetLeverage leverage pair true) (_set_leverage leverage pair true)
  else ret tt.

Definition _get_params (side : BuySell) (ordertype : string) (leverage : Q)
    (reduceOnly : bool) (time_in_force : string) : gmap string value :=
  let params := super_get_params side ordertype leverage reduceOnly time_in_force in
  if TradingMode_eqb (trading_mode self) FUTURES && MarginMode_truthy (margin_mode self)
  then <[ "positionIdx" := VInt 1 ]> params
  else params.

Definition _get_stop_params (side : BuySell) (ordertype : string) (stop_price : Q)
    : gmap string value :=
  super_get_stop_params side ordertype stop_price.

Definition _order_needs_price (side : BuySell) (ordertype : string) : bool :=
  negb (String.eqb ordertype "market").

(** How an f-string prints [pair]. *)
Definition format_pair (pair : option string) : string :=
  match pair with
  | None => "None"
  | Some s => s
  end.

(** [not pair] *)
Definition pair_is_falsy (pair : option string) : bool :=
  match pair with
  | None => true
  | Some s => String.eqb s ""
  end.

Definition fetch_positions (pair : option string) : M W (list value) :=
  emit (LogInfo ("[Bitget] fetch_positions called with pair: " ++ format_pair pair)) ;;
  if pair_is_falsy pair then
    emit (LogWarning "[Bitget] fetch_positions: pair is None or empty, calling self._api.fetch_positions() without symbols.") ;;
    call (ApiFetchPositions None) (api_fetch_positions None)
  else
    call (SuperFetchPositions pair) (super_fetch_positions pair).

End Methods.

End Bitget.

(** ** The host's capability registry *)

Module CapabilityTable.

(** Modelled from the spec: the merge of the adapter's tables, which the base
    class performs when it is constructed and which is not part of this file.
    The trading-mode-specific table wins over the base table on key
    collision; the only mode-specific table this adapter declares is the
    futures one. *)
Definition build (mode : TradingMode) (base futures : gmap string value)
    : gmap string value :=
  match mode with
  | FUTURES => futures ∪ base
  | SPOT | MARGIN => base
  end.

Inductive error := UnsupportedFeature (feature : string).

(** Modelled from the spec: [get(feature) -> value], which fails with
    [UnsupportedFeature] when the feature is absent. *)
Definition get (table : gmap string value) (feature : string) : error + value :=
  match table !! feature with
  | Some v => inr v
  | None => inl (UnsupportedFeature feature)
  end.

(** The table of the Bitget adapter in a given trading mode. *)
Definition bitget (mode : TradingMode) : gmap string value :=
  build mode Bitget._ft_has Bitget._ft_has_futures.

End CapabilityTable.

(** ** The host's retry wrapper *)

Module Retry.

(** The error taxonomy of the host. *)
Inductive failure_class := RateLimited | TransientOperational | Permanent.

(** Modelled from the spec: the classification of what an outbound call
    raises.  Rate limiting and temporary failures are retryable; anything
    else, an unclassified exception included, is permanent. *)
Definition classify (e : exc) : failure_class :=
  match e with
  | DDosProtection _ => RateLimited
  | TemporaryError _ _ => TransientOperational
  | OperationalException _ => Permanent
  | Propagated _ => Permanent
  end.

Definition retryable (c : failure_class) : bool :=
  match c with
  | RateLimited | TransientOperational => true
  | Permanent => false
  end.

(** The result of a wrapped call: what the call returned, or a fatal failure
    carrying the last exception seen. *)
Inductive result (A : Type) :=
  | Returned (a : A)
  | FatalFailure (last : option exc).
Arguments Returned {A} a.
Arguments FatalFailure {A} last.

(** Modelled from the spec: the [retrier] decorator, which lives in the host
    and not in this file.  Each attempt succeeds, fails retryably or fails
    fatally; a retryable failure is retried while attempts remain, and running
    out of attempts escalates to a fatal failure.  The first component counts
    the attempts made.  The backoff delay between attempts is a matter of
    time and has no counterpart here. *)
Fixpoint attempts {W A} (last : option exc) (remaining : nat) (f : act W A) (w : W)
    : nat * W * result A :=
  match remaining with
  | O => (O, w, FatalFailure last)
  | S n =>
      let '(w', r) := f w in
      match r with
      | inr a => (1%nat, w', Returned a)
      | inl e =>
          if retryable (classify e) then
            let '(k, w'', res) := attempts (Some e) n f w' in (S k, w'', res)
          else (1%nat, w', FatalFailure (Some e))
      end
  end.

Definition retrier {W A} (max_attempts : nat) (f : act W A) : W -> nat * W * result A :=
  attempts None max_attempts f.

(** An adapter method seen as an outbound call. *)
Definition as_call {W A} (m : M W A) : act W A :=
  fun w => let '(_, w', r) := m w in (w', r).

(** [additional_exchange_init] as the caller sees it, decorated. *)
Definition additional_exchange_init {W} (max_attempts : nat) (self : exchange)
    : W -> nat * W * result unit :=
  retrier max_attempts (as_call (Bitget.additional_exchange_init self)).

End Retry.

(** ** Scripted hosts for the examples *)

Module Scripted.

(** What the raw client does on the margin-mode call and on the leverage
    call: it raises the given exception, or succeeds. *)
Record host := Host {
  margin_error : option raised;
  leverage_error : option raised
}.

(** A rate-limit error and a rejected request, as the raw client raises them. *)
Definition rate_limit : raised :=
  Raised [PyClass "ccxt" "DDoSProtection"; PyClass "ccxt" "NetworkError";
          PyClass "ccxt" "OperationFailed"; PyClass "ccxt" "BaseError";
          PyClass "builtins" "Exception"; PyClass "builtins" "BaseException";
          PyClass "builtins" "object"]
         "bitget too many requests".

Definition bad_request : raised :=
  Raised [PyClass "ccxt" "BadRequest"; PyClass "ccxt" "ExchangeError";
          PyClass "ccxt" "BaseError";
          PyClass "builtins" "Exception"; PyClass "builtins" "BaseException";
          PyClass "builtins" "object"]
         "margin mode is not modified".

(** Modelled from the spec: a base class whose margin-mode and leverage
    calls swallow a failure when [accept_fail] is set and surface it
    otherwise. *)
Definition lenient_set_margin_mode (pair : string) (mode : MarginMode)
    (accept_fail : bool) (params : gmap string value) : act host unit :=
  fun w =>
    match margin_error w with
    | None => (w, inr tt)
    | Some e =>
        if accept_fail then (w, inr tt)
        else (w, inl (TemporaryError "Setting margin mode failed" e))
    end.

Definition lenient_set_leverage (leverage : Q) (pair : string) (accept_fail : bool)
    : act host unit :=
  fun w =>
    match leverage_error w with
    | None => (w, inr tt)
    | Some e =>
        if accept_fail then (w, inr tt)
        else (w, inl (TemporaryError "Setting leverage failed" e))
    end.

(** A base class that swallows a rejected request when [accept_fail] is set
    but lets rate limiting through whatever the flag says. *)
Definition strict_set_margin_mode (pair : string) (mode : MarginMode)
    (accept_fail : bool) (params : gmap string value) : act host unit :=
  fun w =>
    match margin_error w with
    | None => (w, inr tt)
    | Some e =>
        if isinstance e Bitget.ccxt_DDoSProtection then (w, inl (DDosProtection e))
        else if accept_fail then (w, inr tt)
        else (w, inl (TemporaryError "Setting margin mode failed" e))
    end.

(** A base-class parameter builder: it sets [reduceOnly] when asked to. *)
Definition base_get_params (side : BuySell) (ordertype : string) (leverage : Q)
    (reduceOnly : bool) (time_in_force : string) : gmap string value :=
  if reduceOnly then {[ "reduceOnly" := VBool true ]} else ∅.

(** A base-class predicate: futures markets are the linear ones. *)
Definition base_market_is_future (market : gmap string value) : bool :=
  truthy (dict_get market "linear" (VBool false)).

Definition swap_market : gmap string value :=
  {[ "linear" := VBool true; "swap" := VBool true ]}.

Definition dated_future_market : gmap string value :=
  {[ "linear" := VBool true; "future" := VBool true ]}.

(** A [try] block on a world that counts the requests sent: the exchange
    rate-limits the first three and serves every later one. *)
Definition rate_limited_block : nat -> list event * nat * (raised + unit) :=
  fun requests =>
    ([], S requests, if (requests <? 3)%nat then inl rate_limit else inr tt).

(** The outbound call that this block makes under the [except] clauses of
    [additional_exchange_init]. *)
Definition rate_limited_thrice : act nat unit :=
  Retry.as_call (try_except rate_limited_block Bitget.additional_exchange_init_except).

(** A [try] block that does nothing but raise the given exception. *)
Definition raising_block (e : raised) : unit -> list event * unit * (raised + unit) :=
  fun w => ([], w, inl e).

Definition futures_cross : exchange :=
  Exchange FUTURES CROSS {[ "dry_run" := VBool false ]}.

Definition spot_account : exchange :=
  Exchange SPOT NONE {[ "dry_run" := VBool true ]}.

End Scripted.

(** * Properties *)

(** ** Position fetching *)

(** C1: [fetch_positions] with a pair that is [None] or empty logs, then calls
    the raw client's [fetch_positions] with no symbol filter and returns what
    it returns; with any other pair it logs, then delegates to the base
    class's [fetch_positions] with that pair and makes no other call. *)
Theorem fetch_positions_dispatch {W : Type}
    (api : option (list string) -> act W (list value))
    (sup : option string -> act W (list value))
    (pair : option string) (w : W) :
  let r := Bitget.fetch_positions api sup pair w in
  match pair with
  | None | Some "" =>
      trace r =
        [ LogInfo ("[Bitget] fetch_positions called with pair: " ++ Bitget.format_pair pair);
          LogWarning "[Bitget] fetch_positions: pair is None or empty, calling self._api.fetch_positions() without symbols.";
          ApiFetchPositions None ]
      ∧ (world r, outcome r) = api None w
  | Some s =>
      trace r =
        [ LogInfo ("[Bitget] fetch_positions called with pair: " ++ s);
          SuperFetchPositions (Some s) ]
      ∧ (world r, outcome r) = sup (Some s) w
  end.
Proof.
  unfold Bitget.fetch_positions, bind, emit, call, trace, world, outcome.
  destruct pair as [[|c s]|]; simpl.
  - destruct (api None w) as [w' res]; simpl. destruct res; auto.
  - destruct (sup (Some (String c s)) w) as [w' res]; simpl. destruct res; auto.
  - destruct (api None w) as [w' res]; simpl. destruct res; auto.
Qed.

(** ** Order parameters *)

Lemma TradingMode_eqb_eq (a b : TradingMode) : TradingMode_eqb a b = true ↔ a = b.
Proof. destruct a, b; simpl; split; intro H; try reflexivity; discriminate H. Qed.

(** C3: in FUTURES mode with a margin mode set, the dictionary [_get_params]
    returns holds [positionIdx] = 1, whatever the side, order type, leverage,
    reduce-only flag and time in force, and agrees with the base class's
    dictionary on every other key; in SPOT mode it is the base class's
    dictionary, so the adapter adds no [positionIdx]. *)
Theorem get_params_position_index (self : exchange)
    (sup : BuySell -> string -> Q -> bool -> string -> gmap string value)
    (side : BuySell) (ordertype : string) (leverage : Q) (reduceOnly : bool)
    (time_in_force : string) :
  let params := Bitget._get_params self sup side ordertype leverage reduceOnly time_in_force in
  let base := sup side ordertype leverage reduceOnly time_in_force in
  (trading_mode self = FUTURES → MarginMode_truthy (margin_mode self) = true →
     params !! "positionIdx" = Some (VInt 1)
     ∧ ∀ k : string, k ≠ "positionIdx" → params !! k = base !! k)
  ∧ (trading_mode self = SPOT → params = base).
Proof.
  unfold Bitget._get_params. split.
  - intros Hmode Hmargin. rewrite Hmode, Hmargin. simpl. split.
    + apply lookup_insert_eq.
    + intros k Hk. apply lookup_insert_ne. congruence.
  - intros Hmode. rewrite Hmode. reflexivity.
Qed.

Lemma get_params_position_index_witness :
  (Bitget._get_params Scripted.futures_cross Scripted.base_get_params
     sell "market" (3 # 1) true "GTC" !! "positionIdx" = Some (VInt 1)
   ∧ ∀ k : string, k ≠ "positionIdx" →
       Bitget._get_params Scripted.futures_cross Scripted.base_get_params
         sell "market" (3 # 1) true "GTC" !! k
       = Scripted.base_get_params sell "market" (3 # 1) true "GTC" !! k)
  ∧ Bitget._get_params Scripted.spot_account Scripted.base_get_params
      buy "limit" (1 # 1) false "GTC"
    = Scripted.base_get_params buy "limit" (1 # 1) false "GTC".
Proof.
  split.
  - apply (proj1 (get_params_position_index Scripted.futures_cross
                    Scripted.base_get_params sell "market" (3 # 1) true "GTC"));
      reflexivity.
  - apply (proj2 (get_params_position_index Scripted.spot_account
                    Scripted.base_get_params buy "limit" (1 # 1) false "GTC"));
      reflexivity.
Defined.

(** C4: [_order_needs_price] returns [False] exactly when the order type is
    the string [market], and [True] for every other order type, whatever the
    side. *)
Theorem order_needs_price_market (side : BuySell) (ordertype : string) :
  Bitget._order_needs_price side ordertype
  = if decide (ordertype = "market") then false else true.
Proof.
  unfold Bitget._order_needs_price.
  destruct (decide (ordertype = "market")) as [->|Hne].
  - reflexivity.
  - apply negb_true_iff, String.eqb_neq, Hne.
Qed.

(** ** Market classification *)

(** C9: [market_is_future] gives a true value only if the base class's
    predicate holds for the market and the market's [swap] entry is truthy; a
    market without a [swap] key gives [False]. *)
Theorem market_is_future_requires_swap
    (sup : gmap string value -> bool) (market : gmap string value) :
  let r := Bitget.market_is_future sup market in
  (truthy r = true →
     sup market = true ∧ ∃ v, market !! "swap" = Some v ∧ truthy v = true)
  ∧ (market !! "swap" = None → r = VBool false).
Proof.
  unfold Bitget.market_is_future, dict_get. split.
  - destruct (sup market); simpl; [|discriminate].
    destruct (market !! "swap") as [v|]; simpl; [|discriminate].
    intros Hv. split; [reflexivity|]. exists v. split; [reflexivity|exact Hv].
  - intros ->. destruct (sup market); reflexivity.
Qed.

Lemma market_is_future_requires_swap_witness :
  (Scripted.base_market_is_future Scripted.swap_market = true
   ∧ ∃ v, Scripted.swap_market !! "swap" = Some v ∧ truthy v = true)
  ∧ Bitget.market_is_future Scripted.base_market_is_future Scripted.dated_future_market
    = VBool false.
Proof.
  split.
  - apply (proj1 (market_is_future_requires_swap
                    Scripted.base_market_is_future Scripted.swap_market)).
    vm_compute. reflexivity.
  - apply (proj2 (market_is_future_requires_swap
                    Scripted.base_market_is_future Scripted.dated_future_market)).
    vm_compute. reflexivity.
Defined.

(** ** Client configuration *)

(** C10: [_ccxt_config] starts from [options.defaultType] = [spot] in SPOT
    mode and [swap] in FUTURES mode (and from nothing in any other mode), then
    writes the base class's [_ccxt_config] over it: a key of the base class's
    configuration keeps the base class's value, and only a key it lacks keeps
    the adapter's. *)
Theorem ccxt_config_base_wins (self : exchange) (base : gmap string value)
    (k : string) :
  let own : gmap string value :=
    match trading_mode self with
    | SPOT => {[ "options" := VDict {[ "defaultType" := VStr "spot" ]} ]}
    | FUTURES => {[ "options" := VDict {[ "defaultType" := VStr "swap" ]} ]}
    | MARGIN => ∅
    end in
  Bitget._ccxt_config self base !! k
  = match base !! k with
    | Some v => Some v
    | None => own !! k
    end.
Proof.
  unfold Bitget._ccxt_config, dict_update.
  rewrite lookup_union.
  destruct (trading_mode self); simpl; rewrite ?(right_id_L ∅ (∪));
    destruct (base !! k) as [v|]; destruct (_ !! k) as [v'|]; reflexivity.
Qed.

(** ** Capability registry *)

(** C5: in the merged capability table a feature has the futures table's
    value when the mode is FUTURES and the futures table has the feature, and
    the base table's value otherwise.  Merging base [{a: 1, b: 2}] with the
    futures override [{b: 3}] gives [a] = 1 and [b] = 3 in futures mode and
    [b] = 2 in spot mode; on the adapter's own tables, futures mode adds
    [stoploss_on_exchange] and keeps the base table's [ws_enabled]. *)
Theorem capability_table_mode_specific_wins
    (base futures : gmap string value) (mode : TradingMode) (feature : string) :
  CapabilityTable.get (CapabilityTable.build mode base futures) feature
  = match mode, futures !! feature with
    | FUTURES, Some v => inr v
    | _, _ => CapabilityTable.get base feature
    end
  ∧ (let b : gmap string value := {[ "a" := VInt 1; "b" := VInt 2 ]} in
     let f : gmap string value := {[ "b" := VInt 3 ]} in
     CapabilityTable.get (CapabilityTable.build FUTURES b f) "a" = inr (VInt 1)
     ∧ CapabilityTable.get (CapabilityTable.build FUTURES b f) "b" = inr (VInt 3)
     ∧ CapabilityTable.get (CapabilityTable.build SPOT b f) "b" = inr (VInt 2))
  ∧ CapabilityTable.get (CapabilityTable.bitget FUTURES) "stoploss_on_exchange"
    = inr (VBool true)
  ∧ CapabilityTable.get (CapabilityTable.bitget FUTURES) "ws_enabled" = inr (VBool true)
  ∧ CapabilityTable.get (CapabilityTable.bitget SPOT) "stoploss_on_exchange"
    = inl (CapabilityTable.UnsupportedFeature "stoploss_on_exchange").
Proof.
  split; [|repeat split; vm_compute; reflexivity].
  unfold CapabilityTable.get, CapabilityTable.build.
  destruct mode; try (destruct (futures !! feature); reflexivity).
  rewrite lookup_union.
  destruct (futures !! feature) as [v|]; destruct (base !! feature) as [v'|];
    reflexivity.
Qed.

(** ** Error classification *)

(** An exception of the [try] block reaches the caller as the handler
    decides. *)
Lemma try_except_raises {W A : Type}
    (body : W -> list event * W * (raised + A)) (handler : raised -> exc)
    (w w' : W) (t : list event) (e : raised) :
  body w = (t, w', inl e) → try_except body handler w = (t, w', inl (handler e)).
Proof. unfold try_except. intros ->. reflexivity. Qed.

(** The [try] block only subscripts the configuration, so the method returns
    when [dry_run] is there and lets the [KeyError] through when it is not. *)
Lemma additional_exchange_init_run {W : Type} (self : exchange) (w : W) :
  Bitget.additional_exchange_init self w
  = ([], w, match _config self !! "dry_run" with
            | Some _ => inr tt
            | None => inl (Propagated (KeyError "dry_run"))
            end).
Proof.
  unfold Bitget.additional_exchange_init, try_except,
    Bitget.additional_exchange_init_try.
  destruct (_config self !! "dry_run") as [v|]; [destruct (truthy v)|]; reflexivity.
Qed.

(** C6: the method is its [try] block under its [except] clauses, and a
    transport error (an instance of [ccxt.BaseError]) raised in a block that
    these clauses guard never reaches the caller as it is: what reaches the
    caller is [DDosProtection] for a [ccxt.DDoSProtection], otherwise
    [TemporaryError] for a [ccxt.OperationFailed] or [ccxt.ExchangeError],
    and [OperationalException] for every other one, each carrying the
    original error. *)
Theorem additional_exchange_init_reclassifies {W : Type} (self : exchange)
    (block : W -> list event * W * (raised + unit))
    (w w' : W) (t : list event) (e : raised) :
  isinstance e Bitget.ccxt_BaseError = true →
  block w = (t, w', inl e) →
  let handled := Bitget.additional_exchange_init_except e in
  @Bitget.additional_exchange_init W self
  = try_except (Bitget.additional_exchange_init_try self)
               Bitget.additional_exchange_init_except
  ∧ try_except block Bitget.additional_exchange_init_except w = (t, w', inl handled)
  ∧ handled
    = (if isinstance e Bitget.ccxt_DDoSProtection then DDosProtection e
       else if isinstance e Bitget.ccxt_OperationFailed
               || isinstance e Bitget.ccxt_ExchangeError
       then TemporaryError
              ("Error in additional_exchange_init due to " ++ class_name e
                 ++ ". Message: " ++ exc_str e) e
       else OperationalException e)
  ∧ handled ≠ Propagated e.
Proof.
  intros Hbase Hblock handled. subst handled.
  split; [reflexivity|]. split; [apply try_except_raises, Hblock|].
  unfold Bitget.additional_exchange_init_except. rewrite Hbase.
  destruct (isinstance e Bitget.ccxt_DDoSProtection);
    [split; [reflexivity|discriminate]|].
  destruct (isinstance e Bitget.ccxt_OperationFailed
            || isinstance e Bitget.ccxt_ExchangeError);
    split; (reflexivity || discriminate).
Qed.

Lemma additional_exchange_init_reclassifies_witness :
  try_except (Scripted.raising_block Scripted.rate_limit)
    Bitget.additional_exchange_init_except tt
  = ([], tt, inl (DDosProtection Scripted.rate_limit))
  ∧ try_except (Scripted.raising_block Scripted.bad_request)
      Bitget.additional_exchange_init_except tt
    = ([], tt,
       inl (TemporaryError
              "Error in additional_exchange_init due to BadRequest. Message: margin mode is not modified"
              Scripted.bad_request))
  ∧ try_except (Scripted.raising_block (Raised [Bitget.ccxt_BaseError] "unknown"))
      Bitget.additional_exchange_init_except tt
    = ([], tt, inl (OperationalException (Raised [Bitget.ccxt_BaseError] "unknown"))).
Proof.
  split; [|split].
  - exact (proj1 (proj2 (additional_exchange_init_reclassifies Scripted.spot_account
             (Scripted.raising_block Scripted.rate_limit) tt tt [] Scripted.rate_limit
             eq_refl eq_refl))).
  - exact (proj1 (proj2 (additional_exchange_init_reclassifies Scripted.spot_account
             (Scripted.raising_block Scripted.bad_request) tt tt [] Scripted.bad_request
             eq_refl eq_refl))).
  - exact (proj1 (proj2 (additional_exchange_init_reclassifies Scripted.spot_account
             (Scripted.raising_block (Raised [Bitget.ccxt_BaseError] "unknown"))
             tt tt [] (Raised [Bitget.ccxt_BaseError] "unknown") eq_refl eq_refl))).
Defined.

(** ** Retry wrapper *)

Lemma attempts_all_retryable {W A : Type} (f : act W A) (n : nat) :
  ∀ (last : option exc) (w : W),
    (∀ k, (k < n)%nat →
       ∃ e, (f (Nat.iter k (λ w0, (f w0).1) w)).2 = inl e
            ∧ Retry.retryable (Retry.classify e) = true) →
    Retry.attempts last n f w
    = (n, Nat.iter n (λ w0, (f w0).1) w,
       Retry.FatalFailure
         match n with
         | O => last
         | S k =>
             match (f (Nat.iter k (λ w0, (f w0).1) w)).2 with
             | inl e => Some e
             | inr _ => None
             end
         end).
Proof.
  induction n as [|n IH]; intros last w Hf; [reflexivity|].
  cbn [Retry.attempts].
  destruct (Hf O ltac:(lia)) as (e & Hfw & He). simpl in Hfw.
  destruct (f w) as [w1 r] eqn:Efw. simpl in Hfw. subst r. rewrite He.
  assert (Hshift : ∀ k, Nat.iter (S k) (λ w0, (f w0).1) w
                        = Nat.iter k (λ w0, (f w0).1) w1).
  { intros k. rewrite Nat.iter_succ_r, Efw. reflexivity. }
  rewrite (IH (Some e) w1).
  - rewrite Hshift. destruct n as [|n'].
    + simpl. rewrite Efw. reflexivity.
    + rewrite Hshift. reflexivity.
  - intros k Hk. rewrite <- Hshift. apply Hf. lia.
Qed.

(** C8: when each of the first [max_attempts] attempts of a wrapped call
    fails retryably, the wrapper calls it exactly [max_attempts] times (the
    world it leaves is the one the call produces when run that many times in
    a row), makes no further attempt, and ends in a fatal failure that
    carries the error of the last attempt. *)
Theorem retrier_stops_at_max_attempts {W A : Type}
    (max_attempts : nat) (f : act W A) (w : W) :
  (∀ k, (k < max_attempts)%nat →
     ∃ e, (f (Nat.iter k (λ w0, (f w0).1) w)).2 = inl e
          ∧ Retry.retryable (Retry.classify e) = true) →
  Retry.retrier max_attempts f w
  = (max_attempts, Nat.iter max_attempts (λ w0, (f w0).1) w,
     Retry.FatalFailure
       match max_attempts with
       | O => None
       | S k =>
           match (f (Nat.iter k (λ w0, (f w0).1) w)).2 with
           | inl e => Some e
           | inr _ => None
           end
       end).
Proof.
  intros Hf. unfold Retry.retrier. apply attempts_all_retryable. exact Hf.
Qed.

Lemma retrier_stops_at_max_attempts_witness :
  Retry.retrier 3 Scripted.rate_limited_thrice O
  = (3%nat, 3%nat, Retry.FatalFailure (Some (DDosProtection Scripted.rate_limit)))
  ∧ (Scripted.rate_limited_thrice 3%nat).2 = inr tt.
Proof.
  split; [|reflexivity].
  apply (retrier_stops_at_max_attempts 3 Scripted.rate_limited_thrice O).
  intros k Hk. exists (DDosProtection Scripted.rate_limit).
  destruct k as [|[|[|k]]]; [split; reflexivity..|lia].
Defined.

(** The decorated [additional_exchange_init] is never retried: its one
    attempt returns, or fails with the [KeyError], which is permanent. *)
Lemma decorated_additional_exchange_init_single_attempt {W : Type}
    (n : nat) (self : exchange) (w : W) :
  Retry.additional_exchange_init (S n) self w
  = (1%nat, w, match _config self !! "dry_run" with
               | Some _ => Retry.Returned tt
               | None => Retry.FatalFailure (Some (Propagated (KeyError "dry_run")))
               end).
Proof.
  unfold Retry.additional_exchange_init, Retry.retrier, Retry.as_call. simpl.
  rewrite additional_exchange_init_run.
  destruct (_config self !! "dry_run"); reflexivity.
Qed.

(** ** Leverage preparation *)

Section LevPrep.

Context {W : Type}.
Variable self : exchange.
Variable set_margin_mode :
  string -> MarginMode -> bool -> gmap string value -> act W unit.
Variable set_leverage : Q -> string -> bool -> act W unit.

(** Outside spot mode the method is the margin-mode call followed, if it
    returns, by the leverage call, both with [accept_fail=True]. *)
Lemma lev_prep_unfold (pair : string) (leverage : Q) (side : BuySell)
    (accept_fail : bool) (w : W) :
  trading_mode self ≠ SPOT →
  Bitget._lev_prep self set_margin_mode set_leverage
    pair leverage side accept_fail w
  = let params : gmap string value := {[ "leverage" := VFloat leverage ]} in
    let '(w1, r1) := set_margin_mode pair (margin_mode self) true params w in
    match r1 with
    | inl e => ([SetMarginMode pair (margin_mode self) true params], w1, inl e)
    | inr _ =>
        let '(w2, r2) := set_leverage leverage pair true w1 in
        ([SetMarginMode pair (margin_mode self) true params;
          SetLeverage leverage pair true], w2, r2)
    end.
Proof.
  intros Hmode. unfold Bitget._lev_prep.
  destruct (TradingMode_eqb (trading_mode self) SPOT) eqn:E.
  - apply TradingMode_eqb_eq in E. contradiction.
  - simpl. unfold bind, call.
    destruct (set_margin_mode _ _ _ _ w) as [w1 [e|u]]; [reflexivity|].
    destruct (set_leverage _ _ _ w1) as [w2 r2]. reflexivity.
Qed.

(** C2, as the code has it: outside spot mode [_lev_prep] passes
    [accept_fail=True] to both calls whatever its own [accept_fail]
    argument is, so its result does not depend on that argument; it raises
    exactly what these calls raise under [accept_fail=True], so when the
    base class's calls swallow failures under [accept_fail=True],
    [_lev_prep] never raises. *)
Theorem lev_prep_always_best_effort (pair : string) (leverage : Q)
    (side : BuySell) (accept_fail : bool) (w : W) :
  trading_mode self ≠ SPOT →
  let params : gmap string value := {[ "leverage" := VFloat leverage ]} in
  let run := Bitget._lev_prep self set_margin_mode set_leverage pair leverage side in
  let first := set_margin_mode pair (margin_mode self) true params w in
  let second := set_leverage leverage pair true first.1 in
  run accept_fail w = run (negb accept_fail) w
  ∧ trace (run accept_fail w)
    = SetMarginMode pair (margin_mode self) true params
      :: match first.2 with
         | inl _ => []
         | inr _ => [SetLeverage leverage pair true]
         end
  ∧ outcome (run accept_fail w)
    = match first.2 with
      | inl e => inl e
      | inr _ => second.2
      end
  ∧ ((∀ p m ps w0, (set_margin_mode p m true ps w0).2 = inr tt) →
     (∀ l p w0, (set_leverage l p true w0).2 = inr tt) →
     outcome (run accept_fail w) = inr tt).
Proof.
  intros Hmode params run first second. subst run first second.
  split; [reflexivity|].
  rewrite lev_prep_unfold by exact Hmode. cbv zeta. fold params.
  destruct (set_margin_mode pair (margin_mode self) true params w)
    as [w1 [e|u]] eqn:E1; cbn [fst snd].
  - split; [reflexivity|]. split; [reflexivity|].
    intros Hmm _. specialize (Hmm pair (margin_mode self) params w).
    rewrite E1 in Hmm. discriminate Hmm.
  - destruct (set_leverage leverage pair true w1) as [w2 r2] eqn:E2; cbn [fst snd].
    split; [reflexivity|]. split; [reflexivity|].
    intros _ Hlev. specialize (Hlev leverage pair w1).
    rewrite E2 in Hlev. exact Hlev.
Qed.

(** C7, as the code has it: in SPOT mode [_lev_prep] makes no call and
    leaves the world as it is; in any other mode it calls [set_margin_mode]
    first and then, if that call returned, the leverage call, and nothing
    else; if [set_margin_mode] raises, the exception propagates and the
    leverage call is not made. *)
Theorem lev_prep_sequence (pair : string) (leverage : Q) (side : BuySell)
    (accept_fail : bool) (w : W) :
  let r := Bitget._lev_prep self set_margin_mode set_leverage
             pair leverage side accept_fail w in
  let params : gmap string value := {[ "leverage" := VFloat leverage ]} in
  match trading_mode self with
  | SPOT => r = ([], w, inr tt)
  | MARGIN | FUTURES =>
      match set_margin_mode pair (margin_mode self) true params w with
      | (w1, inr _) =>
          trace r = [ SetMarginMode pair (margin_mode self) true params;
                      SetLeverage leverage pair true ]
          ∧ (world r, outcome r) = set_leverage leverage pair true w1
      | (w1, inl e) =>
          r = ([ SetMarginMode pair (margin_mode self) true params ], w1, inl e)
      end
  end.
Proof.
  intros r params. subst r.
  destruct (trading_mode self) eqn:Hmode.
  - unfold Bitget._lev_prep. rewrite Hmode. reflexivity.
  - rewrite lev_prep_unfold by (rewrite Hmode; discriminate). simpl.
    fold params. destruct (set_margin_mode _ _ _ _ w) as [w1 [e|u]]; [reflexivity|].
    destruct (set_leverage _ _ _ w1) as [w2 r2]. split; reflexivity.
  - rewrite lev_prep_unfold by (rewrite Hmode; discriminate). simpl.
    fold params. destruct (set_margin_mode _ _ _ _ w) as [w1 [e|u]]; [reflexivity|].
    destruct (set_leverage _ _ _ w1) as [w2 r2]. split; reflexivity.
Qed.

End LevPrep.

Lemma lev_prep_always_best_effort_witness :
  let w := Scripted.Host (Some Scripted.bad_request) (Some Scripted.bad_request) in
  let run := Bitget._lev_prep Scripted.futures_cross
               Scripted.lenient_set_margin_mode Scripted.lenient_set_leverage
               "BTC/USDT:USDT" (5 # 1) buy in
  run false w = run true w
  ∧ trace (run false w)
    = [ SetMarginMode "BTC/USDT:USDT" CROSS true {[ "leverage" := VFloat (5 # 1) ]};
        SetLeverage (5 # 1) "BTC/USDT:USDT" true ]
  ∧ outcome (run false w) = inr tt.
Proof.
  destruct (lev_prep_always_best_effort Scripted.futures_cross
              Scripted.lenient_set_margin_mode Scripted.lenient_set_leverage
              "BTC/USDT:USDT" (5 # 1) buy false
              (Scripted.Host (Some Scripted.bad_request) (Some Scripted.bad_request)))
    as (Hsame & Htrace & _ & Hquiet).
  - discriminate.
  - split; [exact Hsame|]. split; [exact Htrace|]. apply Hquiet.
    + intros p m ps w0. unfold Scripted.lenient_set_margin_mode.
      destruct (Scripted.margin_error w0); reflexivity.
    + intros l p w0. unfold Scripted.lenient_set_leverage.
      destruct (Scripted.leverage_error w0); reflexivity.
Defined.

(** C2 as stated fails: called with [accept_fail=False] on an exchange that
    rejects the margin-mode request, [_lev_prep] returns normally, although
    the base class's [set_margin_mode] surfaces that very failure when it is
    itself called with [accept_fail=False]. *)
Lemma lev_prep_ignores_accept_fail :
  let w := Scripted.Host (Some Scripted.bad_request) None in
  outcome (Bitget._lev_prep Scripted.futures_cross
             Scripted.lenient_set_margin_mode Scripted.lenient_set_leverage
             "BTC/USDT:USDT" (5 # 1) buy false w) = inr tt
  ∧ (Scripted.lenient_set_margin_mode "BTC/USDT:USDT" CROSS false
       {[ "leverage" := VFloat (5 # 1) ]} w).2
    = inl (TemporaryError "Setting margin mode failed" Scripted.bad_request).
Proof.
  split; reflexivity.
Qed.

(** C7 as stated fails: when [set_margin_mode] raises (here the exchange
    rate-limits the request, which this base class surfaces whatever
    [accept_fail] says), [_lev_prep] stops there: the only call made is
    [set_margin_mode], and the leverage call never happens. *)
Lemma lev_prep_stops_when_margin_mode_raises :
  let w := Scripted.Host (Some Scripted.rate_limit) None in
  let r := Bitget._lev_prep Scripted.futures_cross
             Scripted.strict_set_margin_mode Scripted.lenient_set_leverage
             "BTC/USDT:USDT" (5 # 1) buy false w in
  trace r = [ SetMarginMode "BTC/USDT:USDT" CROSS true {[ "leverage" := VFloat (5 # 1) ]} ]
  ∧ outcome r = inl (DDosProtection Scripted.rate_limit).
Proof.
  split; reflexivity.
Qed.

(** * Further properties of the adapter *)

(** ** Market classification *)

(** X1: [market_is_future] gives a true value exactly when the base class's
    predicate holds for the market and the market's [swap] entry (taken as
    [False] when the key is missing) is truthy. *)
Theorem market_is_future_iff
    (sup : gmap string value -> bool) (market : gmap string value) :
  truthy (Bitget.market_is_future sup market) = true
  ↔ sup market = true ∧ truthy (dict_get market "swap" (VBool false)) = true.
Proof.
  unfold Bitget.market_is_future. destruct (sup market); simpl.
  - split; [intros H; split; [reflexivity|exact H] | intros [_ H]; exact H].
  - split; [discriminate | intros [H _]; discriminate H].
Qed.

(** X2: what [market_is_future] returns is [False] or the very object stored
    under the market's [swap] key; a [swap] entry that is no boolean is
    returned as it is. *)
Theorem market_is_future_returns_swap_entry
    (sup : gmap string value -> bool) (market : gmap string value) :
  let r := Bitget.market_is_future sup market in
  (r = VBool false ∨ market !! "swap" = Some r)
  ∧ (sup market = false → r = VBool false)
  ∧ ∀ v, sup market = true → market !! "swap" = Some v → r = v.
Proof.
  unfold Bitget.market_is_future, dict_get. destruct (sup market); simpl.
  - destruct (market !! "swap") as [v|]; repeat split; auto; try discriminate.
    intros v' _ [= ->]. reflexivity.
  - repeat split; auto. intros v H. discriminate H.
Qed.

Lemma market_is_future_returns_swap_entry_witness :
  Bitget.market_is_future Scripted.base_market_is_future
    {[ "swap" := VBool true ]} = VBool false
  ∧ Bitget.market_is_future Scripted.base_market_is_future
      {[ "linear" := VInt 1; "swap" := VStr "perpetual" ]} = VStr "perpetual".
Proof.
  split.
  - apply (proj1 (proj2 (market_is_future_returns_swap_entry
                           Scripted.base_market_is_future {[ "swap" := VBool true ]}))).
    vm_compute. reflexivity.
  - apply (proj2 (proj2 (market_is_future_returns_swap_entry
                           Scripted.base_market_is_future
                           {[ "linear" := VInt 1; "swap" := VStr "perpetual" ]}))).
    + vm_compute. reflexivity.
    + vm_compute. reflexivity.
Defined.

(** ** Order parameters *)

(** X3: outside FUTURES mode, and in FUTURES mode when no margin mode is set
    ([NONE]), [_get_params] returns the base class's dictionary as it is. *)
Theorem get_params_unchanged (self : exchange)
    (sup : BuySell -> string -> Q -> bool -> string -> gmap string value)
    (side : BuySell) (ordertype : string) (leverage : Q) (reduceOnly : bool)
    (time_in_force : string) :
  trading_mode self ≠ FUTURES ∨ margin_mode self = NONE →
  Bitget._get_params self sup side ordertype leverage reduceOnly time_in_force
  = sup side ordertype leverage reduceOnly time_in_force.
Proof.
  unfold Bitget._get_params. intros [Hmode | Hmargin].
  - destruct (trading_mode self); try reflexivity. contradiction.
  - rewrite Hmargin. destruct (trading_mode self); reflexivity.
Qed.

Lemma get_params_unchanged_witness :
  Bitget._get_params (Exchange FUTURES NONE ∅) Scripted.base_get_params
    sell "limit" (2 # 1) true "IOC"
  = Scripted.base_get_params sell "limit" (2 # 1) true "IOC"
  ∧ Bitget._get_params (Exchange MARGIN CROSS ∅) Scripted.base_get_params
      buy "market" (2 # 1) false "GTC"
    = Scripted.base_get_params buy "market" (2 # 1) false "GTC".
Proof.
  split.
  - apply (get_params_unchanged (Exchange FUTURES NONE ∅)). right. reflexivity.
  - apply (get_params_unchanged (Exchange MARGIN CROSS ∅)). left. discriminate.
Defined.

(** X4: for every combination of trading mode and margin mode the adapter
    declares as supported, [_get_params] returns a dictionary with
    [positionIdx] = 1, and [_ccxt_config] selects the [swap] market type
    unless the base class's configuration has its own [options]. *)
Theorem supported_modes_are_swap_with_position_index (self : exchange)
    (sup : BuySell -> string -> Q -> bool -> string -> gmap string value)
    (base : gmap string value)
    (side : BuySell) (ordertype : string) (leverage : Q) (reduceOnly : bool)
    (time_in_force : string) :
  (trading_mode self, margin_mode self) ∈ Bitget._supported_trading_mode_margin_pairs →
  Bitget._get_params self sup side ordertype leverage reduceOnly time_in_force
    !! "positionIdx" = Some (VInt 1)
  ∧ (base !! "options" = None →
     Bitget._ccxt_config self base !! "options"
     = Some (VDict {[ "defaultType" := VStr "swap" ]})).
Proof.
  unfold Bitget._supported_trading_mode_margin_pairs.
  intros Hin. unfold Bitget._get_params, Bitget._ccxt_config, dict_update.
  assert (trading_mode self = FUTURES ∧ MarginMode_truthy (margin_mode self) = true)
    as [-> ->].
  { apply elem_of_cons in Hin as [[= -> ->] | Hin]; [split; reflexivity|].
    apply elem_of_cons in Hin as [[= -> ->] | Hin]; [split; reflexivity|].
    apply elem_of_nil in Hin. contradiction. }
  simpl. split.
  - apply lookup_insert_eq.
  - intros Hbase. rewrite lookup_union, Hbase. reflexivity.
Qed.

Lemma supported_modes_are_swap_with_position_index_witness :
  Bitget._get_params (Exchange FUTURES ISOLATED ∅) Scripted.base_get_params
    buy "limit" (10 # 1) false "GTC" !! "positionIdx" = Some (VInt 1)
  ∧ Bitget._ccxt_config (Exchange FUTURES ISOLATED ∅) ∅ !! "options"
    = Some (VDict {[ "defaultType" := VStr "swap" ]}).
Proof.
  destruct (supported_modes_are_swap_with_position_index
              (Exchange FUTURES ISOLATED ∅) Scripted.base_get_params ∅
              buy "limit" (10 # 1) false "GTC") as [Hidx Hcfg].
  - vm_compute. right. left.
  - split; [exact Hidx | apply Hcfg; reflexivity].
Defined.

(** X5: in every mode [_get_params] keeps each entry of the base class's
    dictionary except possibly [positionIdx], and [positionIdx] is the only
    key it can add. *)
Theorem get_params_keeps_base_entries (self : exchange)
    (sup : BuySell -> string -> Q -> bool -> string -> gmap string value)
    (side : BuySell) (ordertype : string) (leverage : Q) (reduceOnly : bool)
    (time_in_force : string) :
  let params := Bitget._get_params self sup side ordertype leverage reduceOnly time_in_force in
  let base := sup side ordertype leverage reduceOnly time_in_force in
  (∀ k : string, k ≠ "positionIdx" → params !! k = base !! k)
  ∧ dom base ⊆ dom params
  ∧ dom params ⊆ {[ "positionIdx" ]} ∪ dom base.
Proof.
  unfold Bitget._get_params.
  destruct (TradingMode_eqb (trading_mode self) FUTURES
            && MarginMode_truthy (margin_mode self)).
  - split; [|split].
    + intros k Hk. apply lookup_insert_ne. congruence.
    + rewrite dom_insert_L. set_solver.
    + rewrite dom_insert_L. set_solver.
  - split; [|split]; [reflexivity|set_solver..].
Qed.

(** ** Client configuration *)

(** X6: [_ccxt_config] never alters or drops a setting of the base class's
    configuration, and [options] is the only key it can add. *)
Theorem ccxt_config_extends_base (self : exchange) (base : gmap string value) :
  base ⊆ Bitget._ccxt_config self base
  ∧ dom (Bitget._ccxt_config self base) ⊆ {[ "options" ]} ∪ dom base.
Proof.
  unfold Bitget._ccxt_config, dict_update. split.
  - apply map_union_subseteq_l.
  - rewrite dom_union_L. apply union_least; [apply union_subseteq_r|].
    destruct (trading_mode self); simpl;
      rewrite ?(right_id_L ∅ (∪)), ?dom_singleton_L, ?dom_empty_L;
      [apply union_subseteq_l | apply empty_subseteq | apply union_subseteq_l].
Qed.

(** X7: when the base class's configuration has no [options] entry,
    [_ccxt_config] is that configuration with [options] set to
    [{defaultType: spot}] in SPOT mode and [{defaultType: swap}] in FUTURES
    mode, and is that configuration itself in MARGIN mode. *)
Theorem ccxt_config_without_base_options (self : exchange)
    (base : gmap string value) :
  base !! "options" = None →
  Bitget._ccxt_config self base
  = match trading_mode self with
    | SPOT => <[ "options" := VDict {[ "defaultType" := VStr "spot" ]} ]> base
    | FUTURES => <[ "options" := VDict {[ "defaultType" := VStr "swap" ]} ]> base
    | MARGIN => base
    end.
Proof.
  intros Hbase. unfold Bitget._ccxt_config, dict_update.
  destruct (trading_mode self); simpl; rewrite ?(right_id_L ∅ (∪)).
  - symmetry. apply insert_union_singleton_r, Hbase.
  - reflexivity.
  - symmetry. apply insert_union_singleton_r, Hbase.
Qed.

Lemma ccxt_config_without_base_options_witness :
  Bitget._ccxt_config Scripted.spot_account {[ "enableRateLimit" := VBool true ]}
  = <[ "options" := VDict {[ "defaultType" := VStr "spot" ]} ]>
      {[ "enableRateLimit" := VBool true ]}.
Proof.
  apply (ccxt_config_without_base_options Scripted.spot_account
           {[ "enableRateLimit" := VBool true ]}).
  vm_compute. reflexivity.
Defined.

(** X8: when the base class's configuration has an [options] entry of its
    own, [_ccxt_config] is exactly the base class's configuration: the
    update is shallow, so the adapter's [defaultType] is discarded whole,
    even if the base class's [options] names no [defaultType]. *)
Theorem ccxt_config_with_base_options (self : exchange)
    (base : gmap string value) :
  is_Some (base !! "options") →
  Bitget._ccxt_config self base = base.
Proof.
  intros [o Ho]. unfold Bitget._ccxt_config, dict_update.
  apply map_eq. intros k. rewrite lookup_union.
  destruct (decide (k = "options")) as [->|Hk].
  - rewrite Ho. destruct (trading_mode self); simpl;
      destruct (_ !! "options"); reflexivity.
  - destruct (trading_mode self); simpl; rewrite ?(right_id_L ∅ (∪));
      rewrite ?lookup_singleton_ne by congruence;
      rewrite ?lookup_empty; destruct (base !! k); reflexivity.
Qed.

Lemma ccxt_config_with_base_options_witness :
  Bitget._ccxt_config Scripted.futures_cross
    {[ "options" := VDict {[ "adjustForTimeDifference" := VBool true ]} ]}
  = {[ "options" := VDict {[ "adjustForTimeDifference" := VBool true ]} ]}.
Proof.
  apply (ccxt_config_with_base_options Scripted.futures_cross
           {[ "options" := VDict {[ "adjustForTimeDifference" := VBool true ]} ]}).
  eexists. vm_compute. reflexivity.
Defined.

(** ** Error classification *)

(** X9: whatever exception reaches the [except] clauses of
    [additional_exchange_init], the exception that leaves them carries that
    very exception; it leaves unchanged exactly when it is an instance of
    none of [ccxt.DDoSProtection], [ccxt.OperationFailed],
    [ccxt.ExchangeError] and [ccxt.BaseError]. *)
Theorem additional_exchange_init_except_keeps_cause (e : raised) :
  let handled := Bitget.additional_exchange_init_except e in
  (handled = DDosProtection e
   ∨ (∃ msg, handled = TemporaryError msg e)
   ∨ handled = OperationalException e
   ∨ handled = Propagated e)
  ∧ (handled = Propagated e
     ↔ isinstance e Bitget.ccxt_DDoSProtection = false
       ∧ isinstance e Bitget.ccxt_OperationFailed = false
       ∧ isinstance e Bitget.ccxt_ExchangeError = false
       ∧ isinstance e Bitget.ccxt_BaseError = false).
Proof.
  unfold Bitget.additional_exchange_init_except.
  destruct (isinstance e Bitget.ccxt_DDoSProtection);
    [split; [auto | split; [discriminate | intros [H _]; discriminate H]]|].
  destruct (isinstance e Bitget.ccxt_OperationFailed); simpl;
    [split; [eauto | split; [discriminate | intros (_ & H & _); discriminate H]]|].
  destruct (isinstance e Bitget.ccxt_ExchangeError); simpl;
    [split; [eauto | split; [discriminate | intros (_ & _ & H & _); discriminate H]]|].
  destruct (isinstance e Bitget.ccxt_BaseError);
    [split; [auto | split; [discriminate | intros (_ & _ & _ & H); discriminate H]]|].
  split; [auto 6 | split; auto].
Qed.

(** ** Leverage preparation *)

(** X10: [_lev_prep] is guarded by the trading mode alone.  In MARGIN mode,
    and in FUTURES mode with no margin mode set, where [_get_params] adds
    nothing to the order parameters, [_lev_prep] still starts by calling
    [set_margin_mode] with the margin mode as it is. *)
Theorem lev_prep_not_guarded_by_margin_mode {W : Type} (self : exchange)
    (set_margin_mode : string -> MarginMode -> bool -> gmap string value -> act W unit)
    (set_leverage : Q -> string -> bool -> act W unit)
    (sup : BuySell -> string -> Q -> bool -> string -> gmap string value)
    (pair : string) (leverage : Q) (side : BuySell) (accept_fail : bool)
    (ordertype : string) (reduceOnly : bool) (time_in_force : string) (w : W) :
  trading_mode self = MARGIN
  ∨ (trading_mode self = FUTURES ∧ margin_mode self = NONE) →
  Bitget._get_params self sup side ordertype leverage reduceOnly time_in_force
  = sup side ordertype leverage reduceOnly time_in_force
  ∧ ∃ rest,
      trace (Bitget._lev_prep self set_margin_mode set_leverage
               pair leverage side accept_fail w)
      = SetMarginMode pair (margin_mode self) true {[ "leverage" := VFloat leverage ]}
        :: rest.
Proof.
  intros Hguard. split.
  - unfold Bitget._get_params.
    destruct Hguard as [-> | [-> ->]]; reflexivity.
  - rewrite lev_prep_unfold
      by (destruct Hguard as [-> | [-> _]]; discriminate).
    simpl. destruct (set_margin_mode _ _ _ _ w) as [w1 [e|u]].
    + eexists. reflexivity.
    + destruct (set_leverage _ _ _ w1) as [w2 r2]. eexists. reflexivity.
Qed.

Lemma lev_prep_not_guarded_by_margin_mode_witness :
  Bitget._get_params (Exchange FUTURES NONE ∅) Scripted.base_get_params
    buy "limit" (5 # 1) false "GTC"
  = Scripted.base_get_params buy "limit" (5 # 1) false "GTC"
  ∧ ∃ rest,
      trace (Bitget._lev_prep (Exchange FUTURES NONE ∅)
               Scripted.lenient_set_margin_mode Scripted.lenient_set_leverage
               "BTC/USDT:USDT" (5 # 1) buy false (Scripted.Host None None))
      = SetMarginMode "BTC/USDT:USDT" NONE true {[ "leverage" := VFloat (5 # 1) ]}
        :: rest.
Proof.
  apply (lev_prep_not_guarded_by_margin_mode (Exchange FUTURES NONE ∅)
           Scripted.lenient_set_margin_mode Scripted.lenient_set_leverage
           Scripted.base_get_params "BTC/USDT:USDT" (5 # 1) buy false
           "limit" false "GTC" (Scripted.Host None None)).
  right. split; reflexivity.
Defined.
